(** * The-U-Net: the [eyeballDataset] loader of [unet_recreation.ipynb] and
    the shape bookkeeping of the U-Net it prepares data for.

    The notebook has one code cell with behaviour of its own: the class
    [eyeballDataset] (constructor, [__len__], [__getitem__]).  It is embedded
    here function by function: Python dictionaries are insertion-ordered
    association lists, exceptions are the [Raise] branch of [result], the
    file system and the image decoder are parameters of a section. *)

From stdpp Require Import gmap strings list pretty.
From Stdlib Require Import Ascii ZArith Lia.

Open Scope string_scope.
Open Scope nat_scope.

(** ** Results of fallible code *)

Inductive result (E A : Type) : Type :=
| Ok (a : A)
| Raise (e : E).
Arguments Ok {E A} a.
Arguments Raise {E A} e.

Definition result_bind {E A B} (r : result E A) (k : A -> result E B) : result E B :=
  match r with
  | Ok a => k a
  | Raise e => Raise e
  end.

Definition is_Ok {E A} (r : result E A) : Prop :=
  match r with
  | Ok _ => True
  | Raise _ => False
  end.

Module Dataset.

(** ** Python values the class touches *)

(** A [pathlib.Path] as the directory it lies in and its final component. *)
Record Path : Type := mkPath { parent : string; name : string }.

#[global] Instance Path_eq_dec : EqDecision Path.
Proof. solve_decision. Defined.

(** The exceptions the class can raise.  [OSError] stands for the failures of
    [Path.iterdir] and [Image.open] ([FileNotFoundError],
    [NotADirectoryError], PIL's [UnidentifiedImageError], all of them
    subclasses of [OSError]). *)
Inductive exn : Type :=
| AttributeError (attr : string)
| KeyError (key : string)
| IndexError
| TypeError (msg : string)
| OSError (p : Path).

#[global] Instance exn_eq_dec : EqDecision exn.
Proof. solve_decision. Defined.

(** [str.rfind(c)]: the index of the last occurrence of [c], [None] for -1. *)
Fixpoint rfind (c : Ascii.ascii) (s : string) : option nat :=
  match s with
  | EmptyString => None
  | String a s' =>
      match rfind c s' with
      | Some i => Some (S i)
      | None => if Ascii.eqb a c then Some 0 else None
      end
  end.

(** [PurePath.stem] of Python 3.11:
    [i = name.rfind('.'); name[:i] if 0 < i < len(name) - 1 else name]. *)
Definition stem (p : Path) : string :=
  match rfind "."%char (name p) with
  | Some i =>
      if (0 <? i) && (i <? String.length (name p) - 1)
      then String.substring 0 i (name p)
      else name p
  | None => name p
  end.

(** The slice [s[:-k]] for [k > 0]: the first [len(s) - k] characters, the
    empty string when [s] has fewer than [k]. *)
Definition slice_to_neg (k : nat) (s : string) : string :=
  String.substring 0 (String.length s - k) s.

(** *** Dictionaries with string keys

    A Python [dict] keeps its keys in the order of their first insertion;
    assigning to a key that is present replaces the value in place. *)
Definition dict (V : Type) : Type := list (string * V).

Fixpoint dict_setitem {V} (k : string) (v : V) (d : dict V) : dict V :=
  match d with
  | [] => [(k, v)]
  | (k', v') :: d' =>
      if String.eqb k' k then (k', v) :: d' else (k', v') :: dict_setitem k v d'
  end.

Fixpoint dict_get {V} (k : string) (d : dict V) : option V :=
  match d with
  | [] => None
  | (k', v') :: d' => if String.eqb k' k then Some v' else dict_get k d'
  end.

(** [d[k]] *)
Definition dict_getitem {V} (k : string) (d : dict V) : result exn V :=
  match dict_get k d with
  | Some v => Ok v
  | None => Raise (KeyError k)
  end.

Definition dict_keys {V} (d : dict V) : list string := d.*1.

(** The comprehension [{key(p): p for p in ps}]. *)
Definition dict_comprehension {V} (key : V -> string) (ps : list V) : dict V :=
  fold_left (fun d p => dict_setitem (key p) p d) ps [].

(** [l[idx]] for an integer index: negative indices count from the end. *)
Definition list_getitem {A} (l : list A) (idx : Z) : result exn A :=
  let n := Z.of_nat (length l) in
  let i := (if idx <? 0 then idx + n else idx)%Z in
  if (i <? 0)%Z then Raise IndexError
  else match l !! Z.to_nat i with
       | Some x => Ok x
       | None => Raise IndexError
       end.

(** *** torchvision transforms *)

Inductive InterpolationMode : Type := NEAREST | BILINEAR | BICUBIC.

#[global] Instance InterpolationMode_eq_dec : EqDecision InterpolationMode.
Proof. solve_decision. Defined.

Inductive Transform : Type :=
| Resize (size : nat) (interpolation : InterpolationMode)
| ToTensor.

(** [transforms.Resize(size)]: the interpolation argument is left to its
    default, [InterpolationMode.BILINEAR]. *)
Definition transforms_Resize (size : nat) : Transform := Resize size BILINEAR.

(** The value of a set display [{a, b}].  The elements are kept in a list;
    nothing in the class iterates over the set. *)
Inductive PySet (A : Type) : Type := set_display (elems : list A).
Arguments set_display {A} elems.

Definition set_elems {A} (s : PySet A) : list A :=
  match s with set_display l => l end.

(** Calling a set: sets have no [__call__]. *)
Definition call_set {A X Y} (s : PySet A) (x : X) : result exn Y :=
  Raise (TypeError "'set' object is not callable").

(** ** The class *)

(** An instance after [__init__]: the four attributes it assigns. *)
Record eyeballDataset : Type := mkDataset {
  images : dict Path;
  masks : dict Path;
  ids : list string;
  transforms : PySet Transform
}.

(** The values an attribute of an instance can hold. *)
Inductive attr_value : Type :=
| VDict (d : dict Path)
| VList (l : list string)
| VSet (s : PySet Transform).

(** [self.<attr>] for a name that is neither a method of the class nor an
    attribute of [object]: the instance dictionary has the four names bound
    by [__init__] and no other. *)
Definition getattr (self : eyeballDataset) (attr : string) : result exn attr_value :=
  if String.eqb attr "images" then Ok (VDict (images self))
  else if String.eqb attr "masks" then Ok (VDict (masks self))
  else if String.eqb attr "ids" then Ok (VList (ids self))
  else if String.eqb attr "transforms" then Ok (VSet (transforms self))
  else Raise (AttributeError attr).

(** [len(v)] *)
Definition py_len (v : attr_value) : nat :=
  match v with
  | VDict d => length d
  | VList l => length l
  | VSet s => length (set_elems s)
  end.

(** *** Methods: a state and error monad over the instance *)

Definition M (A : Type) : Type := eyeballDataset -> result exn A * eyeballDataset.

Definition ret {A} (a : A) : M A := fun self => (Ok a, self).
Definition lift {A} (r : result exn A) : M A := fun self => (r, self).
Definition gets {A} (f : eyeballDataset -> A) : M A := fun self => (Ok (f self), self).
Definition get_attr (attr : string) : M attr_value := fun self => (getattr self attr, self).
Definition bind {A B} (m : M A) (k : A -> M B) : M B :=
  fun self =>
    match m self with
    | (Ok a, self') => k a self'
    | (Raise e, self') => (Raise e, self')
    end.

Notation "x <- m ;; k" := (bind m (fun x => k))
  (at level 100, m at next level, right associativity).

Section WithEnvironment.

(** The file system and the image decoder: [iterdir] lists a directory and
    [Image_open] decodes a file; [None] is their failure, raised as the
    [OSError] of that path. *)
Variable PILImage : Type.
Variable Tensor : Type.
Variable iterdir : Path -> option (list Path).
Variable Image_open : Path -> option PILImage.

Definition or_OSError {A} (p : Path) (o : option A) : result exn A :=
  match o with
  | Some a => Ok a
  | None => Raise (OSError p)
  end.

(** [eyeballDataset.__init__] (cell lines 116-129), as the constructor call
    [eyeballDataset(image_path, mask_path)]: the fresh instance with its
    four attributes, or the exception of the directory listing that failed.
    The image directory is listed first. *)
Definition __init__ (image_path mask_path : Path) : result exn eyeballDataset :=
  result_bind (or_OSError image_path (iterdir image_path)) (fun image_files =>
  let images := dict_comprehension stem image_files in
  result_bind (or_OSError mask_path (iterdir mask_path)) (fun mask_files =>
  (* [:-5] gets rid of the "_mask" in the key values *)
  let masks := dict_comprehension (fun p => slice_to_neg 5 (stem p)) mask_files in
  let ids := dict_keys images in
  let transforms := set_display [transforms_Resize 572; ToTensor] in
  Ok (mkDataset images masks ids transforms))).

(** [eyeballDataset.__len__] (cell lines 131-132): [return len(self.data)]. *)
Definition __len__ : M nat :=
  data <- get_attr "data" ;;
  ret (py_len data).

(** The body of [eyeballDataset.__getitem__] (cell lines 135-142), with
    what a call [self.transforms(x)] does (lines 139 and 140) as the
    parameter [call], so that the object each of the two lines calls can be
    told.  The attributes the body reads are bound by [__init__] and are
    read as the record's fields; the image file is opened before the mask
    mapping is consulted, and both files are opened before the transforms
    are called. *)
Definition getitem_with (call : PySet Transform -> PILImage -> result exn Tensor)
    (idx : Z) : M (Tensor * Tensor) :=
  ids_ <- gets ids ;;
  id_ <- lift (list_getitem ids_ idx) ;;
  images_ <- gets images ;;
  image_file <- lift (dict_getitem id_ images_) ;;
  image <- lift (or_OSError image_file (Image_open image_file)) ;;
  masks_ <- gets masks ;;
  mask_file <- lift (dict_getitem id_ masks_) ;;
  mask <- lift (or_OSError mask_file (Image_open mask_file)) ;;
  transforms_ <- gets transforms ;;
  image <- lift (call transforms_ image) ;;
  transforms_ <- gets transforms ;;
  mask <- lift (call transforms_ mask) ;;
  ret (image, mask).

(** [eyeballDataset.__getitem__] (cell lines 135-142): [self.transforms] is
    a set, and what calling a set does is [call_set]. *)
Definition __getitem__ (idx : Z) : M (Tensor * Tensor) :=
  getitem_with call_set idx.

End WithEnvironment.

(** The identifier sets of the two mappings. *)
Definition image_ids (self : eyeballDataset) : gset string :=
  list_to_set (dict_keys (images self)).
Definition mask_ids (self : eyeballDataset) : gset string :=
  list_to_set (dict_keys (masks self)).

(** ** Two file systems to run the class on *)

Definition images_dir : Path := mkPath "data/training" "images".
Definition masks_dir : Path := mkPath "data/training" "mask".

Definition image_file (n : string) : Path := mkPath "data/training/images" n.
Definition mask_file (n : string) : Path := mkPath "data/training/mask" n.

(** A split whose files pair up, and whose files all decode. *)
Definition paired_fs (p : Path) : option (list Path) :=
  if decide (p = images_dir)
  then Some [image_file "21_training.tif"; image_file "22_training.tif"]
  else if decide (p = masks_dir)
  then Some [mask_file "21_training_mask.gif"; mask_file "22_training_mask.gif"]
  else None.

Definition open_any (p : Path) : option Path := Some p.

(** A call that succeeds and records its callee and its argument: what
    [__getitem__] would hand back were the collection callable. *)
Definition applied (ts : PySet Transform) (x : Path)
  : result exn (PySet Transform * Path) :=
  Ok (ts, x).

(** A split with a stray text file and an image without a mask, in which the
    text file and one mask, an empty file, are no images to the decoder. *)
Definition stray_fs (p : Path) : option (list Path) :=
  if decide (p = images_dir)
  then Some [image_file "21_training.tif"; image_file "22_training.tif";
             image_file "README.txt"; image_file "23_training.tif"]
  else if decide (p = masks_dir)
  then Some [mask_file "21_training_mask.gif"; mask_file "22_training_mask.gif"]
  else None.

Definition stray_open (p : Path) : option Path :=
  if decide (p = image_file "README.txt") then None
  else if decide (p = mask_file "22_training_mask.gif") then None
  else Some p.

Definition paired_dataset : eyeballDataset :=
  {| images := [("21_training", image_file "21_training.tif");
                ("22_training", image_file "22_training.tif")];
     masks := [("21_training", mask_file "21_training_mask.gif");
               ("22_training", mask_file "22_training_mask.gif")];
     ids := ["21_training"; "22_training"];
     transforms := set_display [Resize 572 BILINEAR; ToTensor] |}.

Definition stray_dataset : eyeballDataset :=
  {| images := [("21_training", image_file "21_training.tif");
                ("22_training", image_file "22_training.tif");
                ("README", image_file "README.txt");
                ("23_training", image_file "23_training.tif")];
     masks := [("21_training", mask_file "21_training_mask.gif");
               ("22_training", mask_file "22_training_mask.gif")];
     ids := ["21_training"; "22_training"; "README"; "23_training"];
     transforms := set_display [Resize 572 BILINEAR; ToTensor] |}.

(** A split in which two image files share a stem and no mask carries the
    "_mask" suffix, and a split whose image directory is empty. *)
Definition twin_fs (p : Path) : option (list Path) :=
  if decide (p = images_dir)
  then Some [image_file "21_training.tif"; image_file "21_training.png";
             image_file "README.txt"]
  else if decide (p = masks_dir)
  then Some [mask_file "21_manual1.gif"; mask_file "x.gif"]
  else None.

Definition empty_fs (p : Path) : option (list Path) :=
  if decide (p = images_dir) then Some []
  else if decide (p = masks_dir) then Some [mask_file "21_training_mask.gif"]
  else None.

(** ** The constructor call of the notebook's last cell

    The cell calls [eyeballDataset("data/training/images",
    "data/training/mask/")] and [eyeballDataset("data/test/mask/")]: the
    arguments are strings, whatever the annotations of [__init__] say, and
    the second call has one argument. *)

(** A positional argument of the call. *)
Inductive py_arg : Type :=
| AStr (s : string)
| APath (p : Path).

Section Call.

Variable iterdir : Path -> option (list Path).

(** [a.iterdir()]: a [Path] lists its directory, a [str] has no such
    attribute. *)
Definition arg_iterdir (a : py_arg) : result exn (list Path) :=
  match a with
  | APath p => or_OSError p (iterdir p)
  | AStr _ => Raise (AttributeError "iterdir")
  end.

(** The body of [__init__] (cell lines 116-129) on arguments of either
    type; the annotations are not checked. *)
Definition init_body (image_path mask_path : py_arg) : result exn eyeballDataset :=
  result_bind (arg_iterdir image_path) (fun image_files =>
  let images := dict_comprehension stem image_files in
  result_bind (arg_iterdir mask_path) (fun mask_files =>
  let masks := dict_comprehension (fun p => slice_to_neg 5 (stem p)) mask_files in
  let ids := dict_keys images in
  let transforms := set_display [transforms_Resize 572; ToTensor] in
  Ok (mkDataset images masks ids transforms))).

(** The call [eyeballDataset(...)] (cell lines 158-159): the two parameters are
    required and positional; any other number of arguments is the
    [TypeError] of the call, raised before the body runs. *)
Definition eyeballDataset_call (args : list py_arg) : result exn eyeballDataset :=
  match args with
  | [] =>
      Raise (TypeError "eyeballDataset.__init__() missing 2 required positional arguments: 'image_path' and 'mask_path'")
  | [_] =>
      Raise (TypeError "eyeballDataset.__init__() missing 1 required positional argument: 'mask_path'")
  | [image_path; mask_path] => init_body image_path mask_path
  | _ =>
      Raise (TypeError ("eyeballDataset.__init__() takes 3 positional arguments but "
                        +:+ pretty (S (length args)) +:+ " were given"))
  end.

End Call.

End Dataset.

Module UNet.

(** ** The network of sections 4.3 to 4.7, at the level of shapes

    The notebook describes the network in prose and a figure and has no
    code for it; every definition of this module follows the words of the
    specification. *)

(** Modelled from the spec: the Padding Policy of the convolutions (4.3),
    for which the notebook has no code. *)
Inductive PaddingPolicy : Type := valid | same.

(** Modelled from the spec: the one error of the forward pass (section 7),
    for which the notebook has no code. *)
Inductive error : Type := ShapeMismatchError.

(** Modelled from the spec: a Feature Map's shape (channels, height, width)
    of section 3; the batch dimension is handled separately. *)
Record Shape : Type := mkShape { channels : nat; height : nat; width : nat }.

#[global] Instance Shape_eq_dec : EqDecision Shape.
Proof. solve_decision. Defined.

(** Modelled from the spec: a Feature Map (section 3), its shape and its
    entries by channel, row and column. *)
Record FeatureMap (A : Type) : Type := mkFeatureMap {
  shape : Shape;
  px : nat -> nat -> nat -> A
}.
Arguments mkFeatureMap {A} shape px.
Arguments shape {A} f.
Arguments px {A} f c i j.

(** Modelled from the spec: the configuration of a model, which the
    notebook never builds: base channel count, number of segmentation
    classes, padding policy.  The specification states the halving of
    max-pooling for even sizes only; [ceil_mode] says whether an odd size is
    rounded up (it is rounded down otherwise). *)
Record Config : Type := mkConfig {
  base : nat;
  num_classes : nat;
  policy : PaddingPolicy;
  ceil_mode : bool
}.

(** Modelled from the spec: the fixed kernel extent of the spatial
    convolutions (4.3): 3, the original paper's, on which the 388 of the
    "valid" policy rests. *)
Definition kernel_extent : nat := 3.

(** Modelled from the spec: one spatial dimension through one convolution
    (4.3): "valid" shrinks it, "same" preserves it. *)
Definition conv_dim (p : PaddingPolicy) (n : nat) : nat :=
  match p with
  | valid => n - (kernel_extent - 1)
  | same => n
  end.

(** Modelled from the spec: one (convolution, activation) stage of 4.3, to
    [cout] channels. *)
Definition conv_stage (p : PaddingPolicy) (cout : nat) (s : Shape) : Shape :=
  {| channels := cout;
     height := conv_dim p (height s);
     width := conv_dim p (width s) |}.

(** Modelled from the spec: the Convolutional Block of 4.3, two sequential
    stages. *)
Definition conv_block (p : PaddingPolicy) (cout : nat) (s : Shape) : Shape :=
  conv_stage p cout (conv_stage p cout s).

(** Modelled from the spec: the halving of one dimension by max-pooling
    (4.4). *)
Definition halve (ceil : bool) (n : nat) : nat :=
  if ceil then (n + 1) / 2 else n / 2.

(** Modelled from the spec: max-pooling (4.4), spatial dimensions halved,
    channel count unchanged. *)
Definition max_pool (ceil : bool) (s : Shape) : Shape :=
  {| channels := channels s;
     height := halve ceil (height s);
     width := halve ceil (width s) |}.

(** Modelled from the spec: the Encoder Stage of 4.4; the pre-downsample
    map is pushed to the Skip Cache, the post-downsample map goes on. *)
Definition encoder_stage (cfg : Config) (cout : nat) (st : Shape * list Shape)
  : Shape * list Shape :=
  let c := conv_block (policy cfg) cout (fst st) in
  (max_pool (ceil_mode cfg) c, c :: snd st).

(** Modelled from the spec: the four Encoder Stages of 4.4 (base, base*2,
    base*4, base*8), on a cache that starts empty. *)
Definition encoder (cfg : Config) (x : Shape) : Shape * list Shape :=
  fold_left (fun st cout => encoder_stage cfg cout st)
    [base cfg; base cfg * 2; base cfg * 4; base cfg * 8] (x, []).

(** Modelled from the spec: the Bottleneck of 4.5, one Convolutional Block
    to base*16 channels. *)
Definition bottleneck (cfg : Config) (s : Shape) : Shape :=
  conv_block (policy cfg) (base cfg * 16) s.

(** Modelled from the spec: the upsampling of 4.6, spatial dimensions
    doubled, channel count halved. *)
Definition upsample (s : Shape) : Shape :=
  {| channels := channels s / 2;
     height := 2 * height s;
     width := 2 * width s |}.

(** Modelled from the spec: the shape of a Center Crop (glossary) to at most
    [h] by [w]; a crop trims and never enlarges. *)
Definition crop_shape (h w : nat) (s : Shape) : Shape :=
  {| channels := channels s;
     height := Nat.min h (height s);
     width := Nat.min w (width s) |}.

(** Modelled from the spec: the Center Crop of a map (glossary), symmetric
    trimming of the border. *)
Definition center_crop {A} (h w : nat) (f : FeatureMap A) : FeatureMap A :=
  {| shape := crop_shape h w (shape f);
     px c i j := px f c (i + (height (shape f) - h) / 2)
                        (j + (width (shape f) - w) / 2) |}.

(** Modelled from the spec: the dimension-equality assertion of 4.6. *)
Definition same_spatial (a b : Shape) : bool :=
  (height a =? height b) && (width a =? width b).

(** Modelled from the spec: the spatial alignment of 4.6, on shapes.  The
    cached map is center-cropped to the decoder map's height and width; a
    mismatch after alignment is fatal. *)
Definition align_shape (dec cached : Shape) : result error Shape :=
  let cropped := crop_shape (height dec) (width dec) cached in
  if same_spatial cropped dec then Ok cropped else Raise ShapeMismatchError.

(** Modelled from the spec: the spatial alignment of 4.6, on maps. *)
Definition align {A} (dec cached : FeatureMap A) : result error (FeatureMap A) :=
  let cropped := center_crop (height (shape dec)) (width (shape dec)) cached in
  if same_spatial (shape cropped) (shape dec) then Ok cropped
  else Raise ShapeMismatchError.

(** Modelled from the spec: the shape of the channel-wise concatenation of
    two aligned maps (4.6). *)
Definition concat_shape (a b : Shape) : Shape :=
  {| channels := channels a + channels b;
     height := height a;
     width := width a |}.

(** Modelled from the spec: the channel-wise concatenation of two aligned
    maps (4.6). *)
Definition concat {A} (a b : FeatureMap A) : FeatureMap A :=
  {| shape := concat_shape (shape a) (shape b);
     px c i j := if c <? channels (shape a) then px a c i j
                 else px b (c - channels (shape a)) i j |}.

(** Modelled from the spec: alignment followed by concatenation, the middle
    of a Decoder Stage (4.6), on maps. *)
Definition align_concat {A} (dec cached : FeatureMap A) : result error (FeatureMap A) :=
  result_bind (align dec cached) (fun aligned => Ok (concat aligned dec)).

(** Modelled from the spec: the Decoder Stage of 4.6: upsampling, alignment
    against the cached map, concatenation, Convolutional Block halving the
    concatenated channel count. *)
Definition decoder_stage (cfg : Config) (s cached : Shape) : result error Shape :=
  let up := upsample s in
  result_bind (align_shape up cached) (fun aligned =>
  let cat := concat_shape aligned up in
  Ok (conv_block (policy cfg) (channels cat / 2) cat)).

(** Modelled from the spec: the Decoder Stages of 4.6, which pop the Skip
    Cache, most recently pushed first. *)
Fixpoint decoder (cfg : Config) (s : Shape) (cache : list Shape) : result error Shape :=
  match cache with
  | [] => Ok s
  | cached :: cache' =>
      result_bind (decoder_stage cfg s cached) (fun s' => decoder cfg s' cache')
  end.

(** Modelled from the spec: the Output Head of 4.7, one 1x1 convolution to
    the number of classes. *)
Definition output_head (cfg : Config) (s : Shape) : Shape :=
  {| channels := num_classes cfg; height := height s; width := width s |}.

(** Modelled from the spec: the forward pass of section 2: Encoder,
    Bottleneck, Decoder, Output Head. *)
Definition forward (cfg : Config) (x : Shape) : result error Shape :=
  let st := encoder cfg x in
  result_bind (decoder cfg (bottleneck cfg (fst st)) (snd st)) (fun d =>
  Ok (output_head cfg d)).

(** Modelled from the spec: the model boundary of section 6, a batch of
    Feature Maps in, a batch out. *)
Definition forward_batch (cfg : Config) (x : nat * Shape) : result error (nat * Shape) :=
  result_bind (forward cfg (snd x)) (fun y => Ok (fst x, y)).

(** Modelled from the spec: the paper's configuration, base channel count
    64. *)
Definition paper_config (p : PaddingPolicy) (ceil : bool) (classes : nat) : Config :=
  {| base := 64; num_classes := classes; policy := p; ceil_mode := ceil |}.

(** A map whose entries are their own coordinates, and the pair of maps of
    the first Decoder Stage under the "valid" policy: the upsampled 56x56
    decoder map and the cached 64x64 encoder map. *)
Definition coordinates (s : Shape) : FeatureMap (nat * nat * nat) :=
  {| shape := s; px c i j := (c, i, j) |}.

Definition up_56 : FeatureMap (nat * nat * nat) := coordinates (mkShape 512 56 56).
Definition skip_64 : FeatureMap (nat * nat * nat) := coordinates (mkShape 512 64 64).

End UNet.

(** * Properties of the dataset class *)

Module DatasetProofs.
Import Dataset.

(** ** Strings *)

Lemma length_append (s t : string) :
  String.length (s +:+ t) = String.length s + String.length t.
Proof. induction s as [|a s IH]; simpl; [done | by rewrite IH]. Qed.

Lemma substring_prefix (s t : string) :
  String.substring 0 (String.length s) (s +:+ t) = s.
Proof.
  induction s as [|a s IH]; simpl.
  - by destruct t.
  - by rewrite IH.
Qed.

Lemma slice_to_neg_append (s t : string) :
  slice_to_neg (String.length t) (s +:+ t) = s.
Proof.
  unfold slice_to_neg. rewrite length_append.
  replace (String.length s + String.length t - String.length t)
    with (String.length s) by lia.
  apply substring_prefix.
Qed.

(** ** Dictionaries *)

Section Dict.
Context {V : Type}.
Implicit Types (d : dict V) (k : string) (v : V).

Lemma dict_get_setitem_eq k v d : dict_get k (dict_setitem k v d) = Some v.
Proof.
  induction d as [|[k' v'] d IH]; simpl.
  - by rewrite String.eqb_refl.
  - destruct (String.eqb k' k) eqn:E; simpl; rewrite E; [done | exact IH].
Qed.

Lemma dict_get_setitem_ne k k' v d :
  k ≠ k' → dict_get k' (dict_setitem k v d) = dict_get k' d.
Proof.
  intros Hne. induction d as [|[k0 v0] d IH]; simpl.
  - destruct (String.eqb_spec k k'); [done | done].
  - destruct (String.eqb_spec k0 k) as [->|Hk0]; simpl.
    + destruct (String.eqb_spec k k'); [done | done].
    + destruct (String.eqb_spec k0 k'); [done | exact IH].
Qed.

Lemma dict_get_Some_keys k d : is_Some (dict_get k d) ↔ k ∈ dict_keys d.
Proof.
  unfold dict_keys. induction d as [|[k' v'] d IH]; simpl.
  - split; [by intros [? ?] | by intros ?%elem_of_nil].
  - rewrite elem_of_cons. destruct (String.eqb_spec k' k) as [->|Hne].
    + split; [by left | by eexists].
    + rewrite IH. split; [by right | by intros [->|?]].
Qed.

Variable key : V → string.

Lemma dict_comprehension_snoc (ps : list V) (p : V) :
  dict_comprehension key (ps ++ [p])%list =
  dict_setitem (key p) p (dict_comprehension key ps).
Proof. unfold dict_comprehension. by rewrite fold_left_app. Qed.

(** Every entry of a comprehension is one of the iterated values, filed
    under its own key. *)
Lemma dict_comprehension_get_Some (ps : list V) k q :
  dict_get k (dict_comprehension key ps) = Some q → q ∈ ps ∧ key q = k.
Proof.
  revert q. induction ps as [|p ps IH] using rev_ind; intros q.
  - done.
  - rewrite dict_comprehension_snoc. destruct (decide (key p = k)) as [<-|Hne].
    + rewrite dict_get_setitem_eq. intros [= <-]. split; [|done].
      apply elem_of_app. right. by left.
    + rewrite dict_get_setitem_ne by done. intros [Hin Hk]%IH. split; [|done].
      apply elem_of_app. by left.
Qed.

(** Every iterated value has its key in the comprehension. *)
Lemma dict_comprehension_get_elem (ps : list V) p :
  p ∈ ps → is_Some (dict_get (key p) (dict_comprehension key ps)).
Proof.
  induction ps as [|p' ps IH] using rev_ind.
  - by intros ?%elem_of_nil.
  - rewrite dict_comprehension_snoc. intros Hin.
    destruct (decide (key p' = key p)) as [->|Hne].
    + rewrite dict_get_setitem_eq. by eexists.
    + rewrite dict_get_setitem_ne by done. apply IH.
      apply elem_of_app in Hin as [Hin|Hin]; [done|].
      apply list_elem_of_singleton in Hin. by subst.
Qed.

End Dict.


Lemma dict_comprehension_keys {V} (key : V → string) (ps : list V) :
  (list_to_set (dict_keys (dict_comprehension key ps)) : gset string)
  = list_to_set (key <$> ps).
Proof.
  apply set_eq. intros k. rewrite !elem_of_list_to_set, <- dict_get_Some_keys.
  rewrite list_elem_of_fmap. split.
  - intros [q Hq]. apply dict_comprehension_get_Some in Hq as [Hin Hk]. eauto.
  - intros (p & -> & Hin). by apply dict_comprehension_get_elem.
Qed.

(** ** List indexing *)

Lemma list_getitem_elem {A} (l : list A) (idx : Z) (x : A) :
  list_getitem l idx = Ok x → x ∈ l.
Proof.
  unfold list_getitem. case_match; [done|].
  destruct (l !! _) eqn:E; [|done].
  intros [= <-]. by eapply list_elem_of_lookup_2.
Qed.

Lemma list_getitem_in_range {A} (l : list A) (idx : Z) :
  (- Z.of_nat (length l) ≤ idx < Z.of_nat (length l))%Z →
  ∃ x, list_getitem l idx = Ok x.
Proof.
  intros Hr. unfold list_getitem.
  set (i := (if (idx <? 0)%Z then (idx + Z.of_nat (length l))%Z else idx)).
  assert (0 ≤ i < Z.of_nat (length l))%Z as Hi.
  { unfold i. destruct (Z.ltb_spec idx 0); lia. }
  destruct (Z.ltb_spec i 0); [lia|].
  destruct (lookup_lt_is_Some_2 l (Z.to_nat i)) as [x Hx]; [lia|].
  rewrite Hx. eauto.
Qed.

(** ** The class *)

Section Class.
Variable PILImage : Type.
Variable Tensor : Type.
Variable iterdir : Path → option (list Path).
Variable Image_open : Path → option PILImage.


Lemma init_listed (image_path mask_path : Path) (image_files mask_files : list Path) :
  iterdir image_path = Some image_files →
  iterdir mask_path = Some mask_files →
  __init__ iterdir image_path mask_path =
  Ok {| images := dict_comprehension stem image_files;
        masks := dict_comprehension (λ p, slice_to_neg 5 (stem p)) mask_files;
        ids := dict_keys (dict_comprehension stem image_files);
        transforms := set_display [Resize 572 BILINEAR; ToTensor] |}.
Proof. intros Hi Hm. unfold __init__. by rewrite Hi, Hm. Qed.

Lemma init_Ok_inv (image_path mask_path : Path) (ds : eyeballDataset) :
  __init__ iterdir image_path mask_path = Ok ds →
  ∃ image_files mask_files,
    iterdir image_path = Some image_files ∧
    iterdir mask_path = Some mask_files ∧
    ds = {| images := dict_comprehension stem image_files;
            masks := dict_comprehension (λ p, slice_to_neg 5 (stem p)) mask_files;
            ids := dict_keys (dict_comprehension stem image_files);
            transforms := set_display [Resize 572 BILINEAR; ToTensor] |}.
Proof.
  unfold __init__. destruct (iterdir image_path) as [a|]; [|done].
  destruct (iterdir mask_path) as [b|]; [|done].
  intros [= <-]. by exists a, b.
Qed.

(** The body of [__getitem__], one failure point after the other. *)
Lemma getitem_unfold (idx : Z) (self : eyeballDataset) :
  __getitem__ PILImage Tensor Image_open idx self =
  (match list_getitem (ids self) idx with
   | Raise e => Raise e
   | Ok id_ =>
       match dict_getitem id_ (images self) with
       | Raise e => Raise e
       | Ok image_file =>
           match Image_open image_file with
           | None => Raise (OSError image_file)
           | Some _ =>
               match dict_getitem id_ (masks self) with
               | Raise e => Raise e
               | Ok mask_file =>
                   match Image_open mask_file with
                   | None => Raise (OSError mask_file)
                   | Some _ => Raise (TypeError "'set' object is not callable")
                   end
               end
           end
       end
   end, self).
Proof.
  unfold __getitem__, getitem_with, bind, gets, lift, ret, call_set, or_OSError.
  destruct (list_getitem (ids self) idx) as [id_|]; [|done].
  destruct (dict_getitem id_ (images self)) as [pi|]; [|done].
  destruct (Image_open pi); [|done].
  destruct (dict_getitem id_ (masks self)) as [pm|]; [|done].
  by destruct (Image_open pm).
Qed.

(** The same for the body, whatever calling the collection does: both
    calls are calls of [self.transforms]. *)
Lemma getitem_with_unfold
    (call : PySet Transform → PILImage → result exn Tensor)
    (idx : Z) (self : eyeballDataset) :
  getitem_with PILImage Tensor Image_open call idx self =
  (match list_getitem (ids self) idx with
   | Raise e => Raise e
   | Ok id_ =>
       match dict_getitem id_ (images self) with
       | Raise e => Raise e
       | Ok image_file =>
           match Image_open image_file with
           | None => Raise (OSError image_file)
           | Some image =>
               match dict_getitem id_ (masks self) with
               | Raise e => Raise e
               | Ok mask_file =>
                   match Image_open mask_file with
                   | None => Raise (OSError mask_file)
                   | Some mask =>
                       result_bind (call (transforms self) image) (λ image',
                       result_bind (call (transforms self) mask) (λ mask',
                       Ok (image', mask')))
                   end
               end
           end
       end
   end, self).
Proof.
  unfold getitem_with, bind, gets, lift, ret, or_OSError.
  destruct (list_getitem (ids self) idx) as [id_|]; [|done].
  destruct (dict_getitem id_ (images self)) as [pi|]; [|done].
  destruct (Image_open pi) as [image|]; [|done].
  destruct (dict_getitem id_ (masks self)) as [pm|]; [|done].
  destruct (Image_open pm) as [mask|]; [|done].
  destruct (call (transforms self) image) as [image'|]; [|done].
  by destruct (call (transforms self) mask).
Qed.

Lemma getitem_self (idx : Z) (self : eyeballDataset) :
  snd (__getitem__ PILImage Tensor Image_open idx self) = self.
Proof. by rewrite getitem_unfold. Qed.

Lemma dict_getitem_Ok {V} (k : string) (d : dict V) :
  is_Ok (dict_getitem k d) ↔ k ∈ dict_keys d.
Proof.
  rewrite <- dict_get_Some_keys. unfold dict_getitem.
  by destruct (dict_get k d); simpl; split.
Qed.


(** C3 (as amended): construction compares no identifier sets and knows no
    integrity error.  Whenever both directories can be listed, [__init__]
    returns a dataset, and the dataset's two key sets are the identifier
    sets derived from the two listings, equal or not. *)
Theorem init_succeeds_on_any_listing
    (image_path mask_path : Path) (image_files mask_files : list Path) :
  iterdir image_path = Some image_files →
  iterdir mask_path = Some mask_files →
  ∃ ds, __init__ iterdir image_path mask_path = Ok ds
      ∧ image_ids ds = list_to_set (stem <$> image_files)
      ∧ mask_ids ds = list_to_set ((λ p, slice_to_neg 5 (stem p)) <$> mask_files).
Proof.
  intros Hi Hm. eexists. split; [by apply init_listed|].
  unfold image_ids, mask_ids; simpl. by rewrite !dict_comprehension_keys.
Qed.

(** C4 (as amended): a constructed dataset has one transform collection,
    [Resize(572)] with the default bilinear interpolation and [ToTensor];
    none of its steps resizes with nearest-neighbour interpolation, and no
    other attribute holds a collection that could serve the masks.
    [__getitem__] is its body run with the call of a set, and the body
    calls that one collection on the image and then on the mask: whatever
    calling the collection does, the sample fetched is what the collection
    makes of the opened image and of the opened mask. *)
Theorem init_single_bilinear_collection
    (image_path mask_path : Path) (ds : eyeballDataset) :
  __init__ iterdir image_path mask_path = Ok ds →
  set_elems (transforms ds) = [Resize 572 BILINEAR; ToTensor]
  ∧ (∀ size mode, Resize size mode ∈ set_elems (transforms ds) → mode = BILINEAR)
  ∧ (∀ attr s, getattr ds attr = Ok (VSet s) → attr = "transforms" ∧ s = transforms ds)
  ∧ (∀ idx, __getitem__ PILImage Tensor Image_open idx ds
            = getitem_with PILImage Tensor Image_open call_set idx ds)
  ∧ (∀ call idx id_ image_file mask_file image mask,
       list_getitem (ids ds) idx = Ok id_ →
       dict_get id_ (images ds) = Some image_file →
       Image_open image_file = Some image →
       dict_get id_ (masks ds) = Some mask_file →
       Image_open mask_file = Some mask →
       getitem_with PILImage Tensor Image_open call idx ds
       = (result_bind (call (transforms ds) image) (λ image',
          result_bind (call (transforms ds) mask) (λ mask',
          Ok (image', mask'))), ds)).
Proof.
  intros Hinit. split_and!.
  - by apply init_Ok_inv in Hinit as (a & b & _ & _ & ->).
  - apply init_Ok_inv in Hinit as (a & b & _ & _ & ->). simpl.
    intros size mode Hin.
    apply elem_of_cons in Hin as [[= _ ->]|Hin]; [done|].
    by apply list_elem_of_singleton in Hin.
  - intros attr s. unfold getattr; simpl.
    destruct (String.eqb_spec attr "images"); [done|].
    destruct (String.eqb_spec attr "masks"); [done|].
    destruct (String.eqb_spec attr "ids"); [done|].
    destruct (String.eqb_spec attr "transforms"); [|done].
    by intros [= <-].
  - done.
  - intros call idx id_ pi pm image mask Hid Hi Hoi Hm Hom.
    rewrite getitem_with_unfold. unfold dict_getitem.
    by rewrite Hid, Hi, Hoi, Hm, Hom.
Qed.

(** C7 (as amended): for an in-range index whose identifier has no entry in
    the mask mapping, the identifier has an image file; when that file
    opens, [__getitem__] raises [KeyError] for the identifier (and the
    file's own [OSError] when it does not open).  The dataset object comes
    back unchanged, so any other lookup behaves as before. *)
Theorem getitem_missing_mask
    (image_path mask_path : Path) (ds : eyeballDataset) (idx : Z) (id_ : string) :
  __init__ iterdir image_path mask_path = Ok ds →
  list_getitem (ids ds) idx = Ok id_ →
  dict_get id_ (masks ds) = None →
  ∃ image_file,
    dict_get id_ (images ds) = Some image_file
    ∧ (is_Some (Image_open image_file) →
       fst (__getitem__ PILImage Tensor Image_open idx ds) = Raise (KeyError id_))
    ∧ (Image_open image_file = None →
       fst (__getitem__ PILImage Tensor Image_open idx ds) = Raise (OSError image_file))
    ∧ ∀ idx', __getitem__ PILImage Tensor Image_open idx'
                (snd (__getitem__ PILImage Tensor Image_open idx ds))
              = __getitem__ PILImage Tensor Image_open idx' ds.
Proof.
  intros Hinit Hid Hmask.
  assert (is_Some (dict_get id_ (images ds))) as [image_file Himg].
  { apply dict_get_Some_keys.
    apply init_Ok_inv in Hinit as (a & b & _ & _ & ->). simpl in *.
    by eapply list_getitem_elem. }
  exists image_file. split_and!; [done| | |].
  - intros [im Him]. rewrite getitem_unfold; simpl.
    unfold dict_getitem. by rewrite Hid, Himg, Him, Hmask.
  - intros Him. rewrite getitem_unfold; simpl.
    unfold dict_getitem. by rewrite Hid, Himg, Him.
  - intros idx'. by rewrite getitem_self.
Qed.

(** C8: an image file is filed under its stem, verbatim, and a mask file
    whose stem ends with "_mask" is filed under the stem without that
    suffix.  (When two files of a directory share a key, the entry holds
    the later one; it has the same key.) *)
Theorem init_identifiers
    (image_path mask_path : Path) (image_files mask_files : list Path)
    (ds : eyeballDataset) :
  iterdir image_path = Some image_files →
  iterdir mask_path = Some mask_files →
  __init__ iterdir image_path mask_path = Ok ds →
  (∀ p, p ∈ image_files →
     stem p ∈ ids ds
     ∧ ∃ q, dict_get (stem p) (images ds) = Some q ∧ q ∈ image_files ∧ stem q = stem p)
  ∧ (∀ p s, p ∈ mask_files → stem p = s +:+ "_mask" →
     slice_to_neg 5 (stem p) = s
     ∧ ∃ q, dict_get s (masks ds) = Some q ∧ q ∈ mask_files
            ∧ slice_to_neg 5 (stem q) = s).
Proof.
  intros Hi Hm Hinit. rewrite (init_listed _ _ _ _ Hi Hm) in Hinit.
  injection Hinit as <-. simpl. split.
  - intros p Hp.
    destruct (dict_comprehension_get_elem stem image_files p Hp) as [q Hq].
    split; [apply dict_get_Some_keys; by eexists|].
    exists q. split; [done|]. by apply dict_comprehension_get_Some in Hq.
  - intros p s Hp Hs.
    assert (slice_to_neg 5 (stem p) = s) as Hkey.
    { rewrite Hs. apply (slice_to_neg_append s "_mask"). }
    split; [done|].
    destruct (dict_comprehension_get_elem
                (λ p, slice_to_neg 5 (stem p)) mask_files p Hp) as [q Hq].
    rewrite Hkey in Hq. exists q. split; [done|].
    by apply dict_comprehension_get_Some in Hq.
Qed.

(** C9 (as amended): [__getitem__] never returns a pair; and for an index
    whose identifier is in both mappings and whose image and mask files both
    open, what it raises is the [TypeError] of calling a set. *)
Theorem getitem_never_returns (ds : eyeballDataset) (idx : Z) :
  ¬ is_Ok (fst (__getitem__ PILImage Tensor Image_open idx ds))
  ∧ ∀ id_ image_file mask_file,
      list_getitem (ids ds) idx = Ok id_ →
      dict_get id_ (images ds) = Some image_file →
      dict_get id_ (masks ds) = Some mask_file →
      is_Some (Image_open image_file) →
      is_Some (Image_open mask_file) →
      __getitem__ PILImage Tensor Image_open idx ds
      = (Raise (TypeError "'set' object is not callable"), ds).
Proof.
  clear iterdir. rewrite getitem_unfold. split.
  - simpl. repeat case_match; simpl; tauto.
  - intros id_ pi pm Hid Hi Hm [im Him] [mk Hmk].
    unfold dict_getitem. by rewrite Hid, Hi, Him, Hm, Hmk.
Qed.

(** C10: in a constructed dataset every identifier of [ids] is a key of
    [images], so for an in-range index the lookup [self.images[id_]]
    succeeds; a [KeyError] out of [__getitem__] is the one of
    [self.masks[id_]]. *)
Theorem ids_are_image_keys
    (image_path mask_path : Path) (ds : eyeballDataset) :
  __init__ iterdir image_path mask_path = Ok ds →
  (∀ id_, id_ ∈ ids ds → is_Ok (dict_getitem id_ (images ds)))
  ∧ (∀ idx, (- Z.of_nat (length (ids ds)) ≤ idx < Z.of_nat (length (ids ds)))%Z →
       ∃ id_, list_getitem (ids ds) idx = Ok id_
              ∧ is_Ok (dict_getitem id_ (images ds)))
  ∧ (∀ idx key,
       fst (__getitem__ PILImage Tensor Image_open idx ds) = Raise (KeyError key) →
       list_getitem (ids ds) idx = Ok key
       ∧ is_Ok (dict_getitem key (images ds))
       ∧ dict_getitem key (masks ds) = Raise (KeyError key)).
Proof.
  intros Hinit.
  assert (∀ id_, id_ ∈ ids ds → is_Ok (dict_getitem id_ (images ds))) as Hkeys.
  { apply init_Ok_inv in Hinit as (a & b & _ & _ & ->). simpl.
    intros id_ Hin. exact (proj2 (dict_getitem_Ok _ _) Hin). }
  split_and!; [done| |].
  - intros idx Hr. destruct (list_getitem_in_range (ids ds) idx Hr) as [id_ Hid].
    exists id_. split; [done|]. apply Hkeys. by eapply list_getitem_elem.
  - intros idx key. rewrite getitem_unfold; simpl.
    destruct (list_getitem (ids ds) idx) as [id_|e] eqn:Hid.
    2:{ intros [= ->]. unfold list_getitem in Hid. repeat case_match; done. }
    pose proof (Hkeys id_ (list_getitem_elem _ _ _ Hid)) as Himg.
    unfold dict_getitem in *.
    destruct (dict_get id_ (images ds)) as [pi|] eqn:Hi; [|done].
    destruct (Image_open pi); [|done].
    destruct (dict_get id_ (masks ds)) as [pm|] eqn:Hm.
    + by destruct (Image_open pm).
    + intros [= <-]. by rewrite Hi, Hm.
Qed.

End Class.

(** C6: [__len__] reads [self.data], an attribute no instance has. *)
Theorem len_raises_AttributeError (self : eyeballDataset) :
  __len__ self = (Raise (AttributeError "data"), self).
Proof. reflexivity. Qed.

(** ** The class on the two example file systems *)

Lemma init_paired : __init__ paired_fs images_dir masks_dir = Ok paired_dataset.
Proof. reflexivity. Qed.

Lemma init_stray : __init__ stray_fs images_dir masks_dir = Ok stray_dataset.
Proof. reflexivity. Qed.

(** C3, as stated, fails: the directories of [stray_fs] derive different
    identifier sets and the constructor returns a dataset all the same. *)
Lemma init_accepts_mismatched_directories :
  __init__ stray_fs images_dir masks_dir = Ok stray_dataset
  ∧ image_ids stray_dataset ≠ mask_ids stray_dataset.
Proof.
  split; [reflexivity|].
  intros Heq.
  assert ("README" ∈ image_ids stray_dataset) as Hin.
  { unfold image_ids. apply elem_of_list_to_set. simpl. set_solver. }
  rewrite Heq in Hin. unfold mask_ids in Hin.
  apply elem_of_list_to_set in Hin. simpl in Hin.
  apply elem_of_cons in Hin as [Hin|Hin]; [done|].
  apply elem_of_cons in Hin as [Hin|Hin]; [done|].
  by apply elem_of_nil in Hin.
Qed.

(** Construction on the stray split, whose identifier sets differ. *)
Lemma init_succeeds_on_any_listing_witness :
  ∃ ds, __init__ stray_fs images_dir masks_dir = Ok ds
      ∧ image_ids ds = list_to_set ["21_training"; "22_training"; "README"; "23_training"]
      ∧ mask_ids ds = list_to_set ["21_training"; "22_training"].
Proof.
  exact (init_succeeds_on_any_listing stray_fs images_dir masks_dir _ _ eq_refl eq_refl).
Defined.

(** C4, as stated, fails: on the paired split no step of the collection
    resizes with nearest-neighbour interpolation, and fetching a sample
    ends in the [TypeError] before any mask is resized. *)
Lemma mask_resize_is_not_nearest :
  __init__ paired_fs images_dir masks_dir = Ok paired_dataset
  ∧ (∀ size, Resize size NEAREST ∉ set_elems (transforms paired_dataset))
  ∧ fst (__getitem__ Path unit open_any 0 paired_dataset)
    = Raise (TypeError "'set' object is not callable").
Proof.
  split_and!; [reflexivity| |reflexivity].
  intros size Hin. simpl in Hin.
  apply elem_of_cons in Hin as [Hin|Hin]; [done|].
  apply elem_of_cons in Hin as [Hin|Hin]; [done|].
  by apply elem_of_nil in Hin.
Qed.

(** The collection of the paired split, and the first sample when calling
    the collection records callee and argument: one collection, on the
    image file and on the mask file. *)
Lemma init_single_bilinear_collection_witness :
  set_elems (transforms paired_dataset) = [Resize 572 BILINEAR; ToTensor]
  ∧ (∀ size mode, Resize size mode ∈ set_elems (transforms paired_dataset) →
       mode = BILINEAR)
  ∧ (∀ attr s, getattr paired_dataset attr = Ok (VSet s) →
       attr = "transforms" ∧ s = transforms paired_dataset)
  ∧ getitem_with Path (PySet Transform * Path) open_any applied 0 paired_dataset
    = (Ok ((set_display [Resize 572 BILINEAR; ToTensor],
            image_file "21_training.tif"),
           (set_display [Resize 572 BILINEAR; ToTensor],
            mask_file "21_training_mask.gif")),
       paired_dataset).
Proof.
  destruct (init_single_bilinear_collection Path (PySet Transform * Path)
              paired_fs open_any images_dir masks_dir paired_dataset eq_refl)
    as (Helems & Hmode & Hattr & _ & Hboth).
  split; [exact Helems|]. split; [exact Hmode|]. split; [exact Hattr|].
  exact (Hboth applied 0%Z "21_training" (image_file "21_training.tif")
           (mask_file "21_training_mask.gif") _ _
           eq_refl eq_refl eq_refl eq_refl eq_refl).
Defined.

(** C5, the code at a paired split whose files all open: both samples end
    in the [TypeError] of calling the set; nothing resized is returned. *)
Theorem getitem_paired_raises_TypeError :
  __init__ paired_fs images_dir masks_dir = Ok paired_dataset
  ∧ __getitem__ Path unit open_any 0 paired_dataset
    = (Raise (TypeError "'set' object is not callable"), paired_dataset)
  ∧ __getitem__ Path unit open_any 1 paired_dataset
    = (Raise (TypeError "'set' object is not callable"), paired_dataset).
Proof. split_and!; reflexivity. Qed.

(** C7, as stated, fails: "README" has no entry in the mask mapping, yet
    fetching it raises the [OSError] of the text file, which is opened
    before the mask mapping is consulted. *)
Lemma missing_mask_of_stray_file_raises_OSError :
  __init__ stray_fs images_dir masks_dir = Ok stray_dataset
  ∧ list_getitem (ids stray_dataset) 2 = Ok "README"
  ∧ dict_get "README" (masks stray_dataset) = None
  ∧ fst (__getitem__ Path unit stray_open 2 stray_dataset)
    = Raise (OSError (image_file "README.txt")).
Proof. split_and!; reflexivity. Qed.

(** "23_training" has an image that opens and no mask. *)
Lemma getitem_missing_mask_witness :
  ∃ image_file,
    dict_get "23_training" (images stray_dataset) = Some image_file
    ∧ fst (__getitem__ Path unit stray_open 3 stray_dataset)
      = Raise (KeyError "23_training")
    ∧ ∀ idx', __getitem__ Path unit stray_open idx'
                (snd (__getitem__ Path unit stray_open 3 stray_dataset))
              = __getitem__ Path unit stray_open idx' stray_dataset.
Proof.
  destruct (getitem_missing_mask Path unit stray_fs stray_open images_dir masks_dir
              stray_dataset 3 "23_training" eq_refl eq_refl eq_refl)
    as (f & Hf & Hkey & _ & Hself).
  exists f. split; [exact Hf|]. split; [|exact Hself].
  apply Hkey. injection Hf as <-. by eexists.
Defined.

(** The identifiers of the paired split. *)
Lemma init_identifiers_witness :
  (stem (image_file "21_training.tif") ∈ ids paired_dataset
   ∧ ∃ q, dict_get (stem (image_file "21_training.tif")) (images paired_dataset) = Some q
          ∧ q ∈ [image_file "21_training.tif"; image_file "22_training.tif"]
          ∧ stem q = stem (image_file "21_training.tif"))
  ∧ (slice_to_neg 5 (stem (mask_file "22_training_mask.gif")) = "22_training"
     ∧ ∃ q, dict_get "22_training" (masks paired_dataset) = Some q
            ∧ q ∈ [mask_file "21_training_mask.gif"; mask_file "22_training_mask.gif"]
            ∧ slice_to_neg 5 (stem q) = "22_training").
Proof.
  destruct (init_identifiers paired_fs images_dir masks_dir _ _ paired_dataset
              eq_refl eq_refl eq_refl) as [Himages Hmasks].
  split.
  - apply Himages. by left.
  - apply Hmasks; [by right; left | reflexivity].
Defined.

(** C9, as stated, fails: "22_training" is in both mappings of the stray
    split, but its mask is an empty file, and fetching it raises the
    decoder's [OSError], not a [TypeError]. *)
Lemma getitem_undecodable_mask_raises_OSError :
  __init__ stray_fs images_dir masks_dir = Ok stray_dataset
  ∧ list_getitem (ids stray_dataset) 1 = Ok "22_training"
  ∧ dict_get "22_training" (images stray_dataset)
    = Some (image_file "22_training.tif")
  ∧ dict_get "22_training" (masks stray_dataset)
    = Some (mask_file "22_training_mask.gif")
  ∧ fst (__getitem__ Path unit stray_open 1 stray_dataset)
    = Raise (OSError (mask_file "22_training_mask.gif")).
Proof. split_and!; reflexivity. Qed.

(** "21_training" is in both mappings and both of its files open. *)
Lemma getitem_never_returns_witness :
  ¬ is_Ok (fst (__getitem__ Path unit stray_open 0 stray_dataset))
  ∧ __getitem__ Path unit stray_open 0 stray_dataset
    = (Raise (TypeError "'set' object is not callable"), stray_dataset).
Proof.
  destruct (getitem_never_returns Path unit stray_open stray_dataset 0)
    as [Hnever Htype].
  split; [exact Hnever|].
  apply (Htype "21_training" (image_file "21_training.tif")
           (mask_file "21_training_mask.gif"));
    solve [reflexivity | by eexists].
Defined.

(** The stray split: every identifier has its image entry, and the
    [KeyError] of index 3 is the mask mapping's. *)
Lemma ids_are_image_keys_witness :
  is_Ok (dict_getitem "README" (images stray_dataset))
  ∧ (∃ id_, list_getitem (ids stray_dataset) (-1) = Ok id_
            ∧ is_Ok (dict_getitem id_ (images stray_dataset)))
  ∧ (list_getitem (ids stray_dataset) 3 = Ok "23_training"
     ∧ is_Ok (dict_getitem "23_training" (images stray_dataset))
     ∧ dict_getitem "23_training" (masks stray_dataset)
       = Raise (KeyError "23_training")).
Proof.
  destruct (ids_are_image_keys Path unit stray_fs stray_open images_dir masks_dir
              stray_dataset eq_refl) as (Hkeys & Hrange & Hmask).
  split; [|split].
  - apply Hkeys. simpl. do 2 right. left.
  - apply Hrange. simpl. lia.
  - apply (Hmask 3%Z "23_training"). reflexivity.
Defined.

End DatasetProofs.

(** * Further properties of the dataset class *)

Module DatasetMore.
Import Dataset DatasetProofs.

(** ** More on strings and stems *)

Lemma append_cons (a : ascii) (s t : string) :
  String a s +:+ t = String a (s +:+ t).
Proof. reflexivity. Qed.

Lemma append_assoc (s t u : string) : (s +:+ t) +:+ u = s +:+ (t +:+ u).
Proof.
  induction s as [|a s IH]; [done|]. by rewrite !append_cons, IH.
Qed.

Lemma substring_0_0 (s : string) : String.substring 0 0 s = "".
Proof. by destruct s. Qed.

Lemma substring_is_prefix (i : nat) (s : string) :
  ∃ t, s = String.substring 0 i s +:+ t.
Proof.
  revert i. induction s as [|a s IH]; intros i.
  - exists "". by destruct i.
  - destruct i as [|i]; simpl.
    + by eexists.
    + destruct (IH i) as [t Ht]. exists t. rewrite append_cons. by f_equal.
Qed.

Lemma substring_short (n : nat) (s : string) :
  String.length s ≤ n → String.substring 0 n s = s.
Proof.
  revert n. induction s as [|a s IH]; intros n Hn; simpl in *.
  - by destruct n.
  - destruct n as [|n]; [lia|]. simpl. rewrite IH; [done | lia].
Qed.

Lemma rfind_None_app (c : ascii) (s t : string) :
  rfind c t = None → rfind c (s +:+ t) = rfind c s.
Proof.
  intros Ht. induction s as [|a s IH]; [done|].
  rewrite append_cons. simpl. by rewrite IH.
Qed.

(** The last dot of [b.e], for an extension [e] without a dot. *)
Lemma rfind_dot_ext (b e : string) :
  rfind "." e = None →
  rfind "." (b +:+ "." +:+ e) = Some (String.length b).
Proof.
  intros He. induction b as [|a b IH].
  - change ("" +:+ "." +:+ e) with (String "." e). simpl. by rewrite He.
  - rewrite append_cons. simpl. by rewrite IH.
Qed.

Lemma stem_ext (dir b e : string) :
  b ≠ "" → e ≠ "" → rfind "." e = None →
  stem (mkPath dir (b +:+ "." +:+ e)) = b.
Proof.
  intros Hb Hne He. unfold stem; simpl. rewrite rfind_dot_ext by done.
  assert (String.length (b +:+ "." +:+ e) = String.length b + S (String.length e))
    as -> by (by rewrite length_append).
  assert (0 < String.length b) by (destruct b; [done | simpl; lia]).
  assert (0 < String.length e) by (destruct e; [done | simpl; lia]).
  rewrite (proj2 (Nat.ltb_lt 0 _)) by done.
  rewrite (proj2 (Nat.ltb_lt (String.length b) _)) by lia.
  simpl. apply substring_prefix.
Qed.


(** ** More on dictionaries *)

Section DictMore.
Context {V : Type}.
Implicit Types (d : dict V) (k : string) (v : V).

Lemma dict_keys_setitem_present k v d :
  k ∈ dict_keys d → dict_keys (dict_setitem k v d) = dict_keys d.
Proof.
  unfold dict_keys. induction d as [|[k' v'] d IH]; intros Hin.
  - by apply elem_of_nil in Hin.
  - cbn [dict_setitem]. destruct (String.eqb_spec k' k) as [->|Hne]; [done|].
    rewrite !fmap_cons. f_equal. apply IH.
    rewrite fmap_cons in Hin. apply elem_of_cons in Hin as [Hin|Hin]; [|done].
    by destruct Hne.
Qed.

Lemma dict_setitem_fresh k v d :
  k ∉ dict_keys d → dict_setitem k v d = (d ++ [(k, v)])%list.
Proof.
  unfold dict_keys. induction d as [|[k' v'] d IH]; intros Hnin; [done|].
  cbn [dict_setitem]. rewrite fmap_cons in Hnin.
  apply not_elem_of_cons in Hnin as [Hne Hnin].
  destruct (String.eqb_spec k' k) as [->|_]; [done|].
  by rewrite IH.
Qed.

Lemma dict_setitem_NoDup k v d :
  NoDup (dict_keys d) → NoDup (dict_keys (dict_setitem k v d)).
Proof.
  intros Hd. destruct (decide (k ∈ dict_keys d)) as [Hin|Hnin].
  - by rewrite dict_keys_setitem_present.
  - rewrite dict_setitem_fresh by done. unfold dict_keys in *.
    rewrite fmap_app. apply NoDup_app. split_and!; [done| |apply NoDup_singleton].
    intros x Hx Hx'. apply list_elem_of_singleton in Hx'. by subst.
Qed.

Lemma dict_setitem_length k v d :
  length (dict_setitem k v d) ≤ S (length d).
Proof.
  induction d as [|[k' v'] d IH]; cbn [dict_setitem]; [done|].
  destruct (String.eqb k' k); simpl in *; lia.
Qed.

Variable key : V → string.

Lemma dict_comprehension_NoDup (ps : list V) :
  NoDup (dict_keys (dict_comprehension key ps)).
Proof.
  induction ps as [|p ps IH] using rev_ind.
  - apply NoDup_nil_2.
  - rewrite dict_comprehension_snoc. by apply dict_setitem_NoDup.
Qed.

Lemma dict_comprehension_length (ps : list V) :
  length (dict_comprehension key ps) ≤ length ps.
Proof.
  induction ps as [|p ps IH] using rev_ind; [done|].
  rewrite dict_comprehension_snoc, length_app. simpl.
  pose proof (dict_setitem_length (key p) p (dict_comprehension key ps)). lia.
Qed.

(** Without two values of the same key, the comprehension is the list of
    the values under their keys, in the order of iteration. *)
Lemma dict_comprehension_distinct (ps : list V) :
  NoDup (key <$> ps) →
  dict_comprehension key ps = (λ p, (key p, p)) <$> ps.
Proof.
  induction ps as [|p ps IH] using rev_ind; intros Hnd; [done|].
  rewrite fmap_app in Hnd. apply NoDup_app in Hnd as (Hps & Hp & _).
  rewrite dict_comprehension_snoc, IH by done.
  rewrite dict_setitem_fresh.
  - by rewrite fmap_app.
  - unfold dict_keys. rewrite <- list_fmap_compose.
    intros Hin. apply (Hp (key p)); [done|]. simpl. by left.
Qed.

(** Among values of the same key, the last one iterated is kept. *)
Lemma dict_comprehension_last (l1 l2 : list V) (p : V) :
  key p ∉ key <$> l2 →
  dict_get (key p) (dict_comprehension key (l1 ++ p :: l2)) = Some p.
Proof.
  induction l2 as [|q l2 IH] using rev_ind; intros Hnin.
  - rewrite dict_comprehension_snoc. apply dict_get_setitem_eq.
  - rewrite fmap_app in Hnin. apply not_elem_of_app in Hnin as [Hl2 Hq].
    replace (l1 ++ p :: l2 ++ [q])%list with ((l1 ++ p :: l2) ++ [q])%list
      by (by rewrite <- app_assoc).
    rewrite dict_comprehension_snoc, dict_get_setitem_ne; [by apply IH|].
    intros Heq. apply Hq. simpl. rewrite Heq. by left.
Qed.

End DictMore.


Lemma stem_prefix (p : Path) : ∃ t, name p = stem p +:+ t.
Proof.
  unfold stem. destruct (rfind "." (name p)) as [i|].
  - case_match; [apply substring_is_prefix|].
    exists "". clear. induction (name p) as [|a s IH]; [done|].
    rewrite append_cons. by f_equal.
  - exists "". induction (name p) as [|a s IH]; [done|].
    rewrite append_cons. by f_equal.
Qed.

Lemma stem_nonempty (p : Path) : name p ≠ "" → stem p ≠ "".
Proof.
  unfold stem. intros Hne. destruct (rfind "." (name p)) as [i|]; [|done].
  case_match eqn:Hi; [|done].
  apply andb_true_iff in Hi as [Hi _]. apply Nat.ltb_lt in Hi.
  destruct (name p); [done|]. destruct i; [lia|]. done.
Qed.

(** ** More on the class *)

Section ClassMore.
Variable PILImage : Type.
Variable Tensor : Type.
Variable iterdir : Path → option (list Path).
Variable Image_open : Path → option PILImage.


(** X2: the identifiers of a constructed dataset are pairwise distinct,
    there is one per entry of the image mapping and at most one per listed
    image file; the keys of the mask mapping are pairwise distinct too. *)
Theorem init_ids_distinct
    (image_path mask_path : Path) (image_files : list Path) (ds : eyeballDataset) :
  iterdir image_path = Some image_files →
  __init__ iterdir image_path mask_path = Ok ds →
  NoDup (ids ds)
  ∧ length (ids ds) = length (images ds)
  ∧ length (ids ds) ≤ length image_files
  ∧ NoDup (dict_keys (masks ds)).
Proof.
  intros Hi (a & b & Ha & _ & ->)%init_Ok_inv. simpl.
  rewrite Hi in Ha. injection Ha as <-.
  split_and!; try apply dict_comprehension_NoDup.
  - unfold dict_keys. by rewrite length_fmap.
  - unfold dict_keys. rewrite length_fmap. apply dict_comprehension_length.
Qed.

(** X3: when the listed image files have pairwise distinct stems, the
    identifiers are the stems in the order of the listing and every file is
    the entry of its own stem. *)
Theorem init_distinct_stems
    (image_path mask_path : Path) (image_files : list Path) (ds : eyeballDataset) :
  iterdir image_path = Some image_files →
  __init__ iterdir image_path mask_path = Ok ds →
  NoDup (stem <$> image_files) →
  ids ds = stem <$> image_files
  ∧ (∀ p, p ∈ image_files → dict_get (stem p) (images ds) = Some p)
  ∧ ∀ i p, image_files !! i = Some p →
      list_getitem (ids ds) (Z.of_nat i) = Ok (stem p).
Proof.
  intros Hi (a & b & Ha & _ & ->)%init_Ok_inv Hnd. simpl.
  rewrite Hi in Ha. injection Ha as <-.
  assert (dict_keys (dict_comprehension stem image_files) = stem <$> image_files)
    as Hkeys.
  { rewrite dict_comprehension_distinct by done. unfold dict_keys.
    by rewrite <- list_fmap_compose. }
  split_and!; [done| |].
  - intros p Hp. apply list_elem_of_split in Hp as (l1 & l2 & ->).
    apply dict_comprehension_last.
    rewrite fmap_app, fmap_cons in Hnd.
    apply NoDup_app in Hnd as (_ & _ & Hnd). by apply NoDup_cons in Hnd as [? _].
  - intros i p Hp. rewrite Hkeys. unfold list_getitem.
    destruct (Z.ltb_spec (Z.of_nat i) 0); [lia|].
    destruct (Z.ltb_spec (Z.of_nat i) 0); [lia|].
    by rewrite Nat2Z.id, list_lookup_fmap, Hp.
Qed.

(** X4: when several listed files have the same stem, the image mapping
    holds the last of them, and no entry holds an earlier one. *)
Theorem init_last_file_wins
    (image_path mask_path : Path) (before after : list Path) (p : Path)
    (ds : eyeballDataset) :
  iterdir image_path = Some (before ++ p :: after)%list →
  __init__ iterdir image_path mask_path = Ok ds →
  stem p ∉ stem <$> after →
  dict_get (stem p) (images ds) = Some p
  ∧ ∀ q id_, q ∈ before → stem q = stem p → q ≠ p →
      dict_get id_ (images ds) ≠ Some q.
Proof.
  intros Hi (a & b & Ha & _ & ->)%init_Ok_inv Hlast. simpl.
  rewrite Hi in Ha. injection Ha as <-.
  pose proof (dict_comprehension_last stem before after p Hlast) as Hp.
  split; [done|].
  intros q id_ _ Hstem Hne Hq.
  pose proof (dict_comprehension_get_Some _ _ _ _ Hq) as [_ <-].
  rewrite Hstem, Hp in Hq. by injection Hq as ->.
Qed.

(** X5: the mask key is the stem without its last five characters,
    whatever these are, and the empty string for a stem of at most five
    characters; the listed mask file has an entry under that key. *)
Theorem init_mask_key_drops_five
    (image_path mask_path : Path) (mask_files : list Path) (p : Path)
    (ds : eyeballDataset) :
  iterdir mask_path = Some mask_files →
  __init__ iterdir image_path mask_path = Ok ds →
  p ∈ mask_files →
  (∀ s t, stem p = s +:+ t → String.length t = 5 →
     ∃ q, dict_get s (masks ds) = Some q ∧ q ∈ mask_files)
  ∧ (String.length (stem p) ≤ 5 →
     ∃ q, dict_get "" (masks ds) = Some q ∧ q ∈ mask_files).
Proof.
  intros Hm (a & b & _ & Hb & ->)%init_Ok_inv Hp. simpl.
  rewrite Hm in Hb. injection Hb as <-.
  destruct (dict_comprehension_get_elem
              (λ p, slice_to_neg 5 (stem p)) mask_files p Hp) as [q Hq].
  cbv beta in Hq. split.
  - intros s t Hs Ht. exists q.
    assert (slice_to_neg 5 (s +:+ t) = s) as Hkey
      by (rewrite <- Ht; apply slice_to_neg_append).
    rewrite Hs, Hkey in Hq. split; [exact Hq|].
    by apply dict_comprehension_get_Some in Hq as [? _].
  - intros Hshort. exists q.
    unfold slice_to_neg in Hq.
    replace (String.length (stem p) - 5) with 0 in Hq by lia.
    rewrite substring_0_0 in Hq. split; [exact Hq|].
    by apply dict_comprehension_get_Some in Hq as [? _].
Qed.

(** X6: an image file [b.e1] and a mask file [b_mask.e2] (a non-empty base
    [b], non-empty extensions without a dot) get the same identifier [b]:
    it is in [ids] and in both mappings, so fetching it raises no
    [KeyError]. *)
Theorem init_pairs_mask_suffix
    (image_path mask_path : Path) (image_files mask_files : list Path)
    (ds : eyeballDataset) (d1 d2 b e1 e2 : string) :
  iterdir image_path = Some image_files →
  iterdir mask_path = Some mask_files →
  __init__ iterdir image_path mask_path = Ok ds →
  b ≠ "" → e1 ≠ "" → e2 ≠ "" → rfind "." e1 = None → rfind "." e2 = None →
  mkPath d1 (b +:+ "." +:+ e1) ∈ image_files →
  mkPath d2 (b +:+ "_mask" +:+ "." +:+ e2) ∈ mask_files →
  b ∈ ids ds
  ∧ is_Some (dict_get b (images ds))
  ∧ is_Some (dict_get b (masks ds))
  ∧ ∀ idx, list_getitem (ids ds) idx = Ok b →
      ∀ key, fst (__getitem__ PILImage Tensor Image_open idx ds) ≠ Raise (KeyError key).
Proof.
  intros Hi Hm Hinit Hb He1 He2 Hd1 Hd2 Hp Hq.
  rewrite (init_listed _ _ _ _ _ Hi Hm) in Hinit. injection Hinit as <-. simpl.
  assert (is_Some (dict_get b (dict_comprehension stem image_files))) as Himg.
  { rewrite <- (stem_ext d1 b e1) by done.
    by apply dict_comprehension_get_elem. }
  assert (is_Some (dict_get b
            (dict_comprehension (λ p, slice_to_neg 5 (stem p)) mask_files))) as Hmask.
  { pose proof (dict_comprehension_get_elem
                  (λ p, slice_to_neg 5 (stem p)) mask_files _ Hq) as Hget.
    simpl in Hget. rewrite <- append_assoc in Hget.
    rewrite stem_ext in Hget; [|by destruct b|done|done].
    by rewrite (slice_to_neg_append b "_mask"
                  : slice_to_neg 5 (b +:+ "_mask") = b) in Hget. }
  split_and!; [by apply dict_get_Some_keys|done|done|].
  intros idx Hidx key. rewrite getitem_unfold; simpl. rewrite Hidx.
  unfold dict_getitem. destruct Himg as [pi ->]. destruct Hmask as [pm ->].
  by repeat case_match.
Qed.

(** X7: when no listed image file has an empty name, every identifier is a
    non-empty prefix of the name of a listed image file. *)
Theorem init_ids_prefix_of_names
    (image_path mask_path : Path) (image_files : list Path) (ds : eyeballDataset) :
  iterdir image_path = Some image_files →
  __init__ iterdir image_path mask_path = Ok ds →
  (∀ p, p ∈ image_files → name p ≠ "") →
  ∀ id_, id_ ∈ ids ds →
    id_ ≠ "" ∧ ∃ p t, p ∈ image_files ∧ name p = id_ +:+ t.
Proof.
  intros Hi (a & b & Ha & _ & ->)%init_Ok_inv Hnames id_. simpl.
  rewrite Hi in Ha. injection Ha as <-.
  intros [p Hp]%dict_get_Some_keys.
  apply dict_comprehension_get_Some in Hp as [Hin <-].
  split; [by apply stem_nonempty, Hnames|].
  destruct (stem_prefix p) as [t Ht]. by exists p, t.
Qed.

(** X8: a negative index counts from the end: for [0 <= i < len(ids)],
    index [i - len(ids)] behaves as index [i]. *)
Theorem getitem_negative_index (ds : eyeballDataset) (i : Z) :
  (0 ≤ i < Z.of_nat (length (ids ds)))%Z →
  __getitem__ PILImage Tensor Image_open (i - Z.of_nat (length (ids ds))) ds
  = __getitem__ PILImage Tensor Image_open i ds.
Proof.
  intros Hi. rewrite !getitem_unfold.
  assert (list_getitem (ids ds) (i - Z.of_nat (length (ids ds)))
          = list_getitem (ids ds) i) as ->; [|done].
  unfold list_getitem.
  destruct (Z.ltb_spec (i - Z.of_nat (length (ids ds))) 0); [|lia].
  destruct (Z.ltb_spec i 0); [lia|].
  by replace (i - Z.of_nat (length (ids ds)) + Z.of_nat (length (ids ds)))%Z
    with i by lia.
Qed.

(** X9: [__getitem__] raises [IndexError] exactly for the indices outside
    [-len(ids) <= idx < len(ids)]. *)
Theorem getitem_IndexError_iff (ds : eyeballDataset) (idx : Z) :
  fst (__getitem__ PILImage Tensor Image_open idx ds) = Raise IndexError
  ↔ (idx < - Z.of_nat (length (ids ds)) ∨ Z.of_nat (length (ids ds)) ≤ idx)%Z.
Proof.
  rewrite getitem_unfold; simpl. split.
  - intros Hraise.
    destruct (decide (- Z.of_nat (length (ids ds)) ≤ idx < Z.of_nat (length (ids ds)))%Z)
      as [Hr|Hr]; [|lia].
    destruct (list_getitem_in_range (ids ds) idx Hr) as [id_ Hid].
    rewrite Hid in Hraise. unfold dict_getitem in Hraise.
    destruct (dict_get id_ (images ds)) as [pi|]; [|done].
    destruct (Image_open pi); [|done].
    destruct (dict_get id_ (masks ds)) as [pm|]; [|done].
    by destruct (Image_open pm).
  - intros Hout. unfold list_getitem.
    destruct (Z.ltb_spec idx 0).
    + destruct (Z.ltb_spec (idx + Z.of_nat (length (ids ds))) 0); [done|lia].
    + destruct (Z.ltb_spec idx 0); [lia|].
      rewrite lookup_ge_None_2; [done|lia].
Qed.

(** X11: an [OSError] out of [__getitem__] names a file that was listed at
    construction and that the decoder does not open. *)
Theorem getitem_OSError_listed
    (image_path mask_path : Path) (image_files mask_files : list Path)
    (ds : eyeballDataset) (idx : Z) (p : Path) :
  iterdir image_path = Some image_files →
  iterdir mask_path = Some mask_files →
  __init__ iterdir image_path mask_path = Ok ds →
  fst (__getitem__ PILImage Tensor Image_open idx ds) = Raise (OSError p) →
  Image_open p = None ∧ (p ∈ image_files ∨ p ∈ mask_files).
Proof.
  intros Hi Hm Hinit.
  rewrite (init_listed _ _ _ _ _ Hi Hm) in Hinit. injection Hinit as <-.
  rewrite getitem_unfold; simpl.
  destruct (list_getitem _ idx) as [id_|e] eqn:Hid.
  2:{ intros [= ->]. unfold list_getitem in Hid. by repeat case_match. }
  unfold dict_getitem.
  destruct (dict_get id_ (dict_comprehension stem image_files)) as [pi|] eqn:Hpi;
    [|done].
  destruct (Image_open pi) eqn:Hopen.
  - destruct (dict_get id_ (dict_comprehension
                               (λ p, slice_to_neg 5 (stem p)) mask_files))
      as [pm|] eqn:Hpm; [|done].
    destruct (Image_open pm) eqn:Hopen'; [done|].
    intros [= <-]. split; [done|]. right.
    by apply dict_comprehension_get_Some in Hpm as [? _].
  - intros [= <-]. split; [done|]. left.
    by apply dict_comprehension_get_Some in Hpi as [? _].
Qed.

(** X12: over an empty image directory the dataset has no identifier and
    every index raises [IndexError], whatever the mask directory holds. *)
Theorem init_empty_image_directory
    (image_path mask_path : Path) (ds : eyeballDataset) :
  iterdir image_path = Some [] →
  __init__ iterdir image_path mask_path = Ok ds →
  ids ds = []
  ∧ ∀ idx, __getitem__ PILImage Tensor Image_open idx ds = (Raise IndexError, ds).
Proof.
  intros Hi (a & b & Ha & _ & ->)%init_Ok_inv.
  rewrite Hi in Ha. injection Ha as <-. split; [done|].
  intros idx. rewrite getitem_unfold; simpl. unfold list_getitem; simpl.
  destruct (idx <? 0)%Z; by destruct (_ <? 0)%Z.
Qed.

End ClassMore.

(** X10: the constructor call returns a dataset exactly when it is given
    two [Path] arguments whose directories can be listed, and the dataset
    is the one of [__init__]; a string in the place of the image directory
    raises [AttributeError], and so does one in the place of the mask
    directory once the image directory is listed; any other number of
    arguments raises [TypeError]. *)
Theorem call_returns_iff (iterdir : Path → option (list Path)) (args : list py_arg) :
  (is_Ok (eyeballDataset_call iterdir args)
   ↔ ∃ image_path mask_path,
       args = [APath image_path; APath mask_path]
       ∧ is_Some (iterdir image_path) ∧ is_Some (iterdir mask_path))
  ∧ (∀ image_path mask_path, args = [APath image_path; APath mask_path] →
       eyeballDataset_call iterdir args = __init__ iterdir image_path mask_path)
  ∧ (∀ s a, args = [AStr s; a] →
       eyeballDataset_call iterdir args = Raise (AttributeError "iterdir"))
  ∧ (∀ image_path s, args = [APath image_path; AStr s] →
       is_Some (iterdir image_path) →
       eyeballDataset_call iterdir args = Raise (AttributeError "iterdir"))
  ∧ (length args ≠ 2 → ∃ msg, eyeballDataset_call iterdir args = Raise (TypeError msg)).
Proof.
  split_and!.
  - split.
    + destruct args as [|a1 [|a2 [|a3 args]]]; try done.
      destruct a1 as [s|ip]; [done|]. destruct a2 as [s|mp].
      * simpl. unfold init_body; simpl. by destruct (iterdir ip).
      * simpl. unfold init_body; simpl. intros Hok. exists ip, mp.
        destruct (iterdir ip); [|done]. destruct (iterdir mp); [|done].
        by split_and!.
    + intros (ip & mp & -> & [a Ha] & [b Hb]). simpl.
      unfold init_body; simpl. by rewrite Ha, Hb.
  - by intros ip mp ->.
  - by intros s a ->.
  - intros ip s -> [a Ha]. simpl. unfold init_body; simpl. by rewrite Ha.
  - intros Hlen. destruct args as [|a1 [|a2 [|a3 args]]]; try done; by eexists.
Qed.

(** ** The further properties on the example file systems *)


(** Three listed files, two identifiers. *)
Lemma init_ids_distinct_witness :
  ∃ ds, __init__ twin_fs images_dir masks_dir = Ok ds
      ∧ ids ds = ["21_training"; "README"]
      ∧ NoDup (ids ds)
      ∧ length (ids ds) = length (images ds)
      ∧ length (ids ds) ≤ 3
      ∧ NoDup (dict_keys (masks ds)).
Proof.
  eexists. split; [reflexivity|]. split; [reflexivity|].
  exact (init_ids_distinct twin_fs images_dir masks_dir _ _ eq_refl eq_refl).
Defined.

Lemma init_distinct_stems_witness :
  ids stray_dataset = ["21_training"; "22_training"; "README"; "23_training"]
  ∧ dict_get "README" (images stray_dataset) = Some (image_file "README.txt")
  ∧ list_getitem (ids stray_dataset) 2 = Ok "README".
Proof.
  destruct (init_distinct_stems stray_fs images_dir masks_dir _ stray_dataset
              eq_refl eq_refl) as (Hids & Hown & Hidx).
  { apply (bool_decide_unpack _). vm_compute. exact I. }
  split; [exact Hids|]. split.
  - apply (Hown (image_file "README.txt")). do 2 right. left.
  - apply (Hidx 2 (image_file "README.txt")). reflexivity.
Defined.

(** Of the two files with stem "21_training" the later one is kept. *)
Lemma init_last_file_wins_witness :
  ∃ ds, __init__ twin_fs images_dir masks_dir = Ok ds
      ∧ dict_get "21_training" (images ds) = Some (image_file "21_training.png")
      ∧ ∀ id_, dict_get id_ (images ds) ≠ Some (image_file "21_training.tif").
Proof.
  eexists. split; [reflexivity|].
  destruct (init_last_file_wins twin_fs images_dir masks_dir
              [image_file "21_training.tif"] [image_file "README.txt"]
              (image_file "21_training.png") _ eq_refl eq_refl) as [Hlast Hdrop].
  { intros Hin. apply list_elem_of_singleton in Hin. discriminate Hin. }
  split; [exact Hlast|].
  intros id_. apply Hdrop; [left | reflexivity | discriminate].
Defined.

(** "21_manual1" loses "nual1"; "x" becomes the empty identifier. *)
Lemma init_mask_key_drops_five_witness :
  ∃ ds, __init__ twin_fs images_dir masks_dir = Ok ds
      ∧ (∃ q, dict_get "21_ma" (masks ds) = Some q
              ∧ q ∈ [mask_file "21_manual1.gif"; mask_file "x.gif"])
      ∧ (∃ q, dict_get "" (masks ds) = Some q
              ∧ q ∈ [mask_file "21_manual1.gif"; mask_file "x.gif"]).
Proof.
  eexists. split; [reflexivity|]. split.
  - destruct (init_mask_key_drops_five twin_fs images_dir masks_dir _
                (mask_file "21_manual1.gif") _ eq_refl eq_refl) as [Hdrop _].
    { left. }
    apply (Hdrop "21_ma" "nual1"); reflexivity.
  - destruct (init_mask_key_drops_five twin_fs images_dir masks_dir _
                (mask_file "x.gif") _ eq_refl eq_refl) as [_ Hshort].
    { right. left. }
    apply Hshort. simpl. lia.
Defined.

Lemma init_pairs_mask_suffix_witness :
  "21_training" ∈ ids paired_dataset
  ∧ is_Some (dict_get "21_training" (images paired_dataset))
  ∧ is_Some (dict_get "21_training" (masks paired_dataset))
  ∧ ∀ idx, list_getitem (ids paired_dataset) idx = Ok "21_training" →
      ∀ key, fst (__getitem__ Path unit open_any idx paired_dataset)
             ≠ Raise (KeyError key).
Proof.
  apply (init_pairs_mask_suffix Path unit paired_fs open_any images_dir masks_dir
           _ _ paired_dataset "data/training/images" "data/training/mask"
           "21_training" "tif" "gif" eq_refl eq_refl eq_refl);
    try discriminate; try reflexivity.
  - left.
  - left.
Defined.

Lemma init_ids_prefix_of_names_witness :
  "README" ≠ ""
  ∧ ∃ p t, p ∈ [image_file "21_training.tif"; image_file "22_training.tif";
                image_file "README.txt"; image_file "23_training.tif"]
           ∧ name p = "README" +:+ t.
Proof.
  apply (init_ids_prefix_of_names stray_fs images_dir masks_dir _ stray_dataset
           eq_refl eq_refl).
  - intros p Hp.
    repeat (apply elem_of_cons in Hp as [->|Hp]; [discriminate|]).
    by apply elem_of_nil in Hp.
  - simpl. do 2 right. left.
Defined.

(** The last sample of the stray split, from either end. *)
Lemma getitem_negative_index_witness :
  __getitem__ Path unit stray_open (-1) stray_dataset
  = __getitem__ Path unit stray_open 3 stray_dataset.
Proof.
  apply (getitem_negative_index Path unit stray_open stray_dataset 3).
  simpl. lia.
Defined.

Lemma getitem_IndexError_iff_witness :
  fst (__getitem__ Path unit stray_open 4 stray_dataset) = Raise IndexError
  ∧ fst (__getitem__ Path unit stray_open (-5) stray_dataset) = Raise IndexError.
Proof.
  split.
  - apply (getitem_IndexError_iff Path unit stray_open stray_dataset 4).
    simpl. lia.
  - apply (getitem_IndexError_iff Path unit stray_open stray_dataset (-5)).
    simpl. lia.
Defined.

Lemma getitem_OSError_listed_witness :
  stray_open (image_file "README.txt") = None
  ∧ (image_file "README.txt"
       ∈ [image_file "21_training.tif"; image_file "22_training.tif";
          image_file "README.txt"; image_file "23_training.tif"]
     ∨ image_file "README.txt"
       ∈ [mask_file "21_training_mask.gif"; mask_file "22_training_mask.gif"]).
Proof.
  exact (getitem_OSError_listed Path unit stray_fs stray_open images_dir masks_dir
           _ _ stray_dataset 2 (image_file "README.txt")
           eq_refl eq_refl eq_refl eq_refl).
Defined.

Lemma init_empty_image_directory_witness :
  ∃ ds, __init__ empty_fs images_dir masks_dir = Ok ds
      ∧ ids ds = []
      ∧ ∀ idx, __getitem__ Path unit open_any idx ds = (Raise IndexError, ds).
Proof.
  eexists. split; [reflexivity|].
  exact (init_empty_image_directory Path unit empty_fs open_any images_dir masks_dir
           _ eq_refl eq_refl).
Defined.

(** The two calls of the notebook's last cell, and a call on two paths. *)
Lemma call_returns_iff_witness :
  eyeballDataset_call paired_fs
    [AStr "data/training/images"; AStr "data/training/mask/"]
  = Raise (AttributeError "iterdir")
  ∧ (∃ msg, eyeballDataset_call paired_fs [AStr "data/test/mask/"]
            = Raise (TypeError msg))
  ∧ is_Ok (eyeballDataset_call paired_fs [APath images_dir; APath masks_dir])
  ∧ eyeballDataset_call paired_fs [APath images_dir; APath masks_dir]
    = __init__ paired_fs images_dir masks_dir.
Proof.
  split_and!.
  - destruct (call_returns_iff paired_fs
                [AStr "data/training/images"; AStr "data/training/mask/"])
      as (_ & _ & Hstr & _).
    by eapply Hstr.
  - destruct (call_returns_iff paired_fs [AStr "data/test/mask/"])
      as (_ & _ & _ & _ & Harity).
    apply Harity. simpl. lia.
  - destruct (call_returns_iff paired_fs [APath images_dir; APath masks_dir])
      as (Hiff & _).
    apply Hiff. exists images_dir, masks_dir. split_and!; [done|by eexists..].
  - destruct (call_returns_iff paired_fs [APath images_dir; APath masks_dir])
      as (_ & Hinit & _).
    by apply Hinit.
Defined.

End DatasetMore.

(** * Properties of the network's shapes *)

Module UNetProofs.
Import UNet.

(** ** Alignment *)

Lemma same_spatial_true (a b : Shape) :
  same_spatial a b = true ↔ height a = height b ∧ width a = width b.
Proof.
  unfold same_spatial. rewrite andb_true_iff, !Nat.eqb_eq. done.
Qed.

Lemma crop_shape_fits (h w : nat) (s : Shape) :
  h ≤ height s → w ≤ width s →
  crop_shape h w s = {| channels := channels s; height := h; width := w |}.
Proof.
  intros Hh Hw. unfold crop_shape. f_equal; lia.
Qed.

Lemma align_shape_fits (dec cached : Shape) :
  height dec ≤ height cached → width dec ≤ width cached →
  align_shape dec cached =
  Ok {| channels := channels cached; height := height dec; width := width dec |}.
Proof.
  intros Hh Hw. unfold align_shape. rewrite crop_shape_fits by done.
  by rewrite (proj2 (same_spatial_true _ _)).
Qed.

(** A cached map smaller than the decoder map in a dimension cannot be
    aligned. *)
Lemma align_shape_too_small (dec cached : Shape) :
  height cached < height dec ∨ width cached < width dec →
  align_shape dec cached = Raise ShapeMismatchError.
Proof.
  intros Hlt. unfold align_shape.
  destruct (same_spatial _ dec) eqn:E; [|done].
  apply same_spatial_true in E as [E1 E2]. simpl in *. lia.
Qed.

(** On maps and on shapes the alignment agrees. *)
Lemma align_shape_of {A} (dec cached : FeatureMap A) :
  match align dec cached with
  | Ok f => align_shape (shape dec) (shape cached) = Ok (shape f)
  | Raise e => align_shape (shape dec) (shape cached) = Raise e
  end.
Proof.
  unfold align, align_shape; simpl.
  by destruct (same_spatial _ (shape dec)).
Qed.

(** Under equal sizes the crop is the identity pass. *)
Lemma center_crop_same_size {A} (f : FeatureMap A) :
  shape (center_crop (height (shape f)) (width (shape f)) f) = shape f
  ∧ ∀ c i j, px (center_crop (height (shape f)) (width (shape f)) f) c i j = px f c i j.
Proof.
  split.
  - simpl. rewrite crop_shape_fits by done. by destruct (shape f).
  - intros c i j. simpl. rewrite !Nat.sub_diag. simpl. by rewrite !Nat.add_0_r.
Qed.

Lemma decoder_stage_fits (cfg : Config) (s cached : Shape) :
  height (upsample s) ≤ height cached →
  width (upsample s) ≤ width cached →
  decoder_stage cfg s cached =
  Ok (conv_block (policy cfg) ((channels cached + channels (upsample s)) / 2)
        {| channels := channels cached + channels (upsample s);
           height := height (upsample s);
           width := width (upsample s) |}).
Proof.
  intros Hh Hw. unfold decoder_stage. by rewrite align_shape_fits.
Qed.

(** C1: in a Decoder Stage whose cached map is at least as large as the
    upsampled decoder map, alignment succeeds and crops the cached map
    around its centre: the concatenation has the decoder map's height and
    width exactly, its first channels are the window of the cached map that
    starts [top] rows and [left] columns in, where the rows trimmed above
    are at most those trimmed below and fewer by at most one (likewise the
    columns), and its last channels are the decoder map, entry for entry. *)
Theorem align_concat_center_crops {A} (dec cached : FeatureMap A) :
  height (shape dec) ≤ height (shape cached) →
  width (shape dec) ≤ width (shape cached) →
  ∃ cat top left,
    align_concat dec cached = Ok cat
    ∧ height (shape cat) = height (shape dec)
    ∧ width (shape cat) = width (shape dec)
    ∧ channels (shape cat) = channels (shape cached) + channels (shape dec)
    ∧ top + height (shape dec) ≤ height (shape cached)
    ∧ height (shape cached) - height (shape dec) - 2 * top ≤ 1
    ∧ left + width (shape dec) ≤ width (shape cached)
    ∧ width (shape cached) - width (shape dec) - 2 * left ≤ 1
    ∧ 2 * top ≤ height (shape cached) - height (shape dec)
    ∧ 2 * left ≤ width (shape cached) - width (shape dec)
    ∧ (∀ c i j, c < channels (shape cached) →
         px cat c i j = px cached c (top + i) (left + j))
    ∧ (∀ c i j, px cat (channels (shape cached) + c) i j = px dec c i j)
    ∧ ∀ cfg s, shape dec = upsample s →
        ∃ out, decoder_stage cfg s (shape cached) = Ok out
             ∧ height out = conv_dim (policy cfg) (conv_dim (policy cfg) (height (shape dec)))
             ∧ width out = conv_dim (policy cfg) (conv_dim (policy cfg) (width (shape dec))).
Proof.
  intros Hh Hw.
  exists (concat (center_crop (height (shape dec)) (width (shape dec)) cached) dec),
    ((height (shape cached) - height (shape dec)) / 2),
    ((width (shape cached) - width (shape dec)) / 2).
  assert (∀ n, 2 * (n / 2) ≤ n ∧ n - 2 * (n / 2) ≤ 1) as Hdiv.
  { intros n. pose proof (Nat.div_mod_eq n 2).
    pose proof (Nat.mod_upper_bound n 2). lia. }
  pose proof (Hdiv (height (shape cached) - height (shape dec))) as [Ht1 Ht2].
  pose proof (Hdiv (width (shape cached) - width (shape dec))) as [Hl1 Hl2].
  split_and!; try lia; try (simpl; lia).
  - unfold align_concat, align. simpl. rewrite crop_shape_fits by done.
    by rewrite (proj2 (same_spatial_true _ _)).
  - intros c i j Hc. simpl. rewrite (proj2 (Nat.ltb_lt _ _) Hc).
    f_equal; lia.
  - intros c i j. simpl.
    destruct (Nat.ltb_spec (channels (shape cached) + c) (channels (shape cached)));
      [lia|]. f_equal; lia.
  - intros cfg s Hs. rewrite Hs in Hh, Hw.
    rewrite (decoder_stage_fits cfg s (shape cached) Hh Hw).
    eexists. split; [done|]. by rewrite Hs.
Qed.

(** ** The forward pass *)

Lemma halve_double (ceil : bool) (n : nat) : halve ceil (2 * n) = n.
Proof.
  unfold halve. destruct ceil.
  - symmetry. apply (Nat.div_unique _ 2 n 1); lia.
  - symmetry. apply (Nat.div_unique _ 2 n 0); lia.
Qed.

Lemma conv_block_same (cout : nat) (s : Shape) :
  conv_block same cout s = {| channels := cout; height := height s; width := width s |}.
Proof. reflexivity. Qed.

Section SamePolicy.
Variable cfg : Config.
Hypothesis Hsame : policy cfg = same.

Lemma encoder_stage_same (cout h w : nat) (s : Shape) (cache : list Shape) :
  height s = 2 * h → width s = 2 * w →
  encoder_stage cfg cout (s, cache) =
  ({| channels := cout; height := h; width := w |},
   {| channels := cout; height := 2 * h; width := 2 * w |} :: cache).
Proof.
  intros Hh Hw. unfold encoder_stage. rewrite Hsame, conv_block_same. simpl.
  unfold max_pool; simpl. by rewrite Hh, Hw, !halve_double.
Qed.

Lemma decoder_stage_same (s cached : Shape) :
  height cached = 2 * height s → width cached = 2 * width s →
  decoder_stage cfg s cached =
  Ok {| channels := (channels cached + channels s / 2) / 2;
        height := height cached; width := width cached |}.
Proof.
  intros Hh Hw. rewrite decoder_stage_fits by (simpl; lia).
  rewrite Hsame, conv_block_same. simpl. by rewrite Hh, Hw.
Qed.

Lemma forward_same_multiple_of_16 (c a b : nat) :
  forward cfg {| channels := c; height := 16 * a; width := 16 * b |} =
  Ok {| channels := num_classes cfg; height := 16 * a; width := 16 * b |}.
Proof.
  unfold forward, encoder. cbn [fold_left].
  rewrite (encoder_stage_same _ (8 * a) (8 * b)) by (simpl; lia).
  rewrite (encoder_stage_same _ (4 * a) (4 * b)) by (simpl; lia).
  rewrite (encoder_stage_same _ (2 * a) (2 * b)) by (simpl; lia).
  rewrite (encoder_stage_same _ a b) by (simpl; lia).
  cbn [fst snd]. unfold bottleneck. rewrite Hsame, conv_block_same.
  cbn [decoder height width channels].
  rewrite decoder_stage_same by (simpl; lia). cbn [result_bind].
  rewrite decoder_stage_same by (simpl; lia). cbn [result_bind].
  rewrite decoder_stage_same by (simpl; lia). cbn [result_bind].
  rewrite decoder_stage_same by (simpl; lia). cbn [result_bind].
  unfold output_head. cbn [height width]. f_equal. f_equal; lia.
Qed.

End SamePolicy.

(** C2 (as amended): with base channel count 64, a batch of 3x572x572 maps
    under the "valid" policy comes out with as many channels as there are
    classes and 388x388 entries; under the "same" policy the output has the
    input's height and width whenever these are multiples of 16 (which 572
    is not). *)
Theorem forward_paper_shapes (batch classes : nat) (ceil : bool) :
  forward_batch (paper_config valid ceil classes) (batch, mkShape 3 572 572)
  = Ok (batch, mkShape classes 388 388)
  ∧ ∀ a b, forward_batch (paper_config same ceil classes)
             (batch, mkShape 3 (16 * a) (16 * b))
           = Ok (batch, mkShape classes (16 * a) (16 * b)).
Proof.
  split.
  - by destruct ceil; vm_compute.
  - intros a b. unfold forward_batch. cbn [fst snd].
    by rewrite forward_same_multiple_of_16.
Qed.

(** What the "same" policy does to 572 = 16 * 35 + 12: the pooled sizes are
    286, 143, 71 (72 when rounding up) and 35 (36).  Rounding down, every
    cached map is cropped and 560 comes out; rounding up, the third Decoder
    Stage holds a 144x144 map against a cached 143x143 one. *)
Lemma forward_same_572 (classes : nat) :
  forward (paper_config same false classes) (mkShape 3 572 572)
  = Ok (mkShape classes 560 560)
  ∧ forward (paper_config same true classes) (mkShape 3 572 572)
    = Raise ShapeMismatchError.
Proof. split; by vm_compute. Qed.

(** C2, as stated, fails under the "same" policy: a 3x572x572 input does
    not come out as 572x572, whichever way max-pooling rounds odd sizes. *)
Lemma same_padding_572_not_preserved :
  forward_batch (paper_config same false 1) (1, mkShape 3 572 572)
    ≠ Ok (1, mkShape 1 572 572)
  ∧ forward_batch (paper_config same true 1) (1, mkShape 3 572 572)
    ≠ Ok (1, mkShape 1 572 572).
Proof. split; vm_compute; discriminate. Qed.

(** The first Decoder Stage of the "valid" policy: a 56x56 decoder map
    against the cached 64x64 map, cropped by 4 entries on each side. *)
Lemma align_concat_center_crops_witness :
  ∃ cat, align_concat up_56 skip_64 = Ok cat
       ∧ height (shape cat) = 56 ∧ width (shape cat) = 56
       ∧ channels (shape cat) = 1024
       ∧ px cat 0 0 0 = (0, 4, 4)
       ∧ px cat 512 0 0 = (0, 0, 0).
Proof.
  destruct (align_concat_center_crops up_56 skip_64)
    as (cat & top & left & Hcat & Hh & Hw & Hc & _ & _ & _ & _ & _ & _
        & Hskip & Hdec & _).
  { simpl. lia. }
  { simpl. lia. }
  exists cat. split_and!; [exact Hcat|exact Hh|exact Hw|exact Hc| |].
  - injection Hcat as <-. reflexivity.
  - injection Hcat as <-. reflexivity.
Defined.

End UNetProofs.
